(** * pytorch-remote: the handle allocator and the local operator layer

    A shallow embedding of [torch_remote/csrc/RemoteMem.cpp] (with the
    declarations of [Remote.h]) and the properties of its allocator,
    device validation, tensor factories and view operations.

    The C++ code talks to a Python object through [get_method(name)(args)].
    Every such call is an event: the backend picks the outcome (a returned
    Python value or a raised Python exception) and may change its own state.
    The functions of the file run in a small state-and-exception monad whose
    state keeps the backend, the list of calls issued so far and the local
    report log.  [py::gil_scoped_acquire] only serialises threads and has no
    counterpart in this sequential model. *)

From Stdlib Require Import ZArith List String Ascii DecimalString Bool Lia.
Import ListNotations.
Local Open Scope string_scope.
Local Open Scope list_scope.
Local Open Scope Z_scope.

(** ** Values crossing the Python boundary *)

(** Python objects, as far as the three casts used by the file tell them
    apart: [None], [bool], [int], and [str] standing for every object that is
    neither a number nor has a truth slot. *)
Inductive pyobj : Type :=
| PyNone
| PyBool (b : bool)
| PyInt (n : Z)
| PyStr (s : string).

(** What calling a Python function gives back: a value, or a raised Python
    exception (named by its type). *)
Inductive pyresult : Type :=
| PyReturn (v : pyobj)
| PyRaise (e : string).

(** The method names handed to [get_method].  ["getDevice"],
    ["deviceCount"] and ["copy_data_by_id"] are literals of RemoteMem.cpp;
    the three [k...Method] constants are declared outside the two source
    files and are kept as three further names. *)
Inductive method : Type :=
| getDevice
| deviceCount
| copy_data_by_id
| kGenerateStorageIdMethod
| kCreateStorageMethod
| kFreeStorageMethod.

(** One call through the callback boundary, as recorded in the trace. *)
Record call : Type := Call { call_method : method; call_args : list pyobj }.

(** ** Integer types of the C++ side *)

(** [storage_id_t] and [size_t] are 64-bit unsigned; [c10::DeviceIndex] is
    [int8_t]; [void*] is 64 bits wide. *)
Definition uint64_max : Z := 2 ^ 64 - 1.
Definition DeviceIndex_min : Z := -128.
Definition DeviceIndex_max : Z := 127.
Definition pointer_bits : Z := 64.

Definition is_uint64 (n : Z) : bool := (0 <=? n) && (n <=? uint64_max).
Definition is_DeviceIndex (n : Z) : bool :=
  (DeviceIndex_min <=? n) && (n <=? DeviceIndex_max).

(** [py::object::cast<T>()] for an integral [T]: a Python [int] (or [bool],
    a subclass of [int]) whose value lies in the range of [T]; anything else
    makes pybind11 throw [cast_error]. *)
Definition cast_integral (in_range : Z -> bool) (v : pyobj) : option Z :=
  match v with
  | PyInt n => if in_range n then Some n else None
  | PyBool b => let n := if b then 1 else 0 in
                if in_range n then Some n else None
  | PyNone | PyStr _ => None
  end.

Definition cast_storage_id_t : pyobj -> option Z := cast_integral is_uint64.
Definition cast_DeviceIndex : pyobj -> option Z := cast_integral is_DeviceIndex.

(** [py::object::cast<bool>()]: [True] and [False] themselves, [None] as
    false, a number by its truth value; other objects do not convert. *)
Definition cast_bool (v : pyobj) : option bool :=
  match v with
  | PyBool b => Some b
  | PyNone => Some false
  | PyInt n => Some (negb (n =? 0))
  | PyStr _ => None
  end.

(** [reinterpret_cast<void*>(storage_id)] and
    [reinterpret_cast<storage_id_t>(ptr)]: the bits are kept, cut to the
    width of the target type. *)
Definition voidp : Type := Z.
Definition nullptr : voidp := 0.
Definition reinterpret_cast_voidp (storage_id : Z) : voidp :=
  storage_id mod 2 ^ pointer_bits.
Definition reinterpret_cast_storage_id_t (p : voidp) : Z :=
  p mod 2 ^ 64.

(** ** Exceptions *)

(** The arguments of a [TORCH_CHECK] message, in order and with their C++
    types; [c10::str] renders them into the text of the [c10::Error]. *)
Inductive msg_arg : Type :=
| Str (s : string)
| UInt64 (n : Z)
| SizeT (n : Z)
| DevIdx (n : Z).

Inductive exn : Type :=
| c10_Error (msg : list msg_arg)      (* a failed TORCH_CHECK *)
| error_already_set (e : string)      (* the Python callee raised *)
| cast_error.                         (* py::object::cast<T>() failed *)

Inductive outcome (A : Type) : Type :=
| Returns (a : A)
| Throws (e : exn).
Arguments Returns {A} a.
Arguments Throws {A} e.

(** ** Framework data *)

(** The enumerations of c10 and ATen, cut down to some of their members;
    the file only ever compares a device type with [PrivateUse1] and a
    layout with [Strided]. *)
Inductive DeviceType : Type := CPU | CUDA | MPS | Meta | PrivateUse1.
Inductive Layout : Type := Strided | Sparse | SparseCsr | Mkldnn.
Inductive ScalarType : Type := Byte | Int | Long | Half | Float | Double | Bool.
Inductive MemoryFormat : Type :=
  Contiguous | Preserve | ChannelsLast | ChannelsLast3d.
Inductive DispatchKey : Type := DispatchKey_CPU | DispatchKey_PrivateUse1.

Definition DeviceType_eqb (a b : DeviceType) : bool :=
  match a, b with
  | CPU, CPU | CUDA, CUDA | MPS, MPS | Meta, Meta
  | PrivateUse1, PrivateUse1 => true
  | _, _ => false
  end.

Definition Layout_eqb (a b : Layout) : bool :=
  match a, b with
  | Strided, Strided | Sparse, Sparse | SparseCsr, SparseCsr
  | Mkldnn, Mkldnn => true
  | _, _ => false
  end.

Record Device : Type := mkDevice { type : DeviceType; index : Z }.

(** The deleter stored in a [DataPtr]: the address of an instance of the
    [ReportAndDelete] template. *)
Inductive DeleterFnPtr : Type :=
| ReportAndDelete_ptr (name : method).

Record DataPtr : Type := mkDataPtr {
  data : voidp;
  ctx : voidp;
  deleter : DeleterFnPtr;
  device : Device
}.

Record Storage : Type := mkStorage {
  data_ptr : DataPtr;
  nbytes : Z
}.

Record Tensor : Type := mkTensor {
  storage : Storage;
  sizes : list Z;
  strides : list Z;
  storage_offset : Z;
  dtype : ScalarType;
  tensor_device : Device
}.

Arguments reinterpret_cast_voidp : simpl never.
Arguments reinterpret_cast_storage_id_t : simpl never.

Definition value_or {A : Type} (o : option A) (d : A) : A :=
  match o with Some a => a | None => d end.

(** ** The error taxonomy of the spec

    Every failure the file raises itself is the [c10::Error] of one
    [TORCH_CHECK]; the spec names them as follows. *)
Definition AllocationError (storage_id nbytes device_index : Z) : exn :=
  c10_Error
    [Str "Failed to allocate storage with ID "; UInt64 storage_id;
     Str " ("; SizeT nbytes; Str " bytes) on remote device ";
     DevIdx device_index].
Definition InvalidDeviceError (device_index : Z) : exn :=
  c10_Error [Str "Invalid device index: "; DevIdx device_index].
Definition UnsupportedLayoutError : exn :=
  c10_Error [Str "Only strided layout is supported"].
Definition UnsupportedFeatureError : exn :=
  c10_Error [Str "Pin memory is not supported on remote devices"].
Definition PreconditionError : exn :=
  c10_Error [Str "as_strided_remote expects a remote tensor"].

(** The text of a [c10::Error]: [TORCH_CHECK] hands its message arguments
    to [c10::str], which streams them one after the other into a
    [std::ostringstream].  A string literal goes in as it is and a
    [uint64_t] or [size_t] in decimal; a [c10::DeviceIndex] is an [int8_t],
    a character type for [operator<<], and goes in as the one character
    with that code. *)
Definition decimal (n : Z) : string := NilZero.string_of_int (Z.to_int n).

Definition stream (a : msg_arg) : string :=
  match a with
  | Str s => s
  | UInt64 n | SizeT n => decimal n
  | DevIdx n => String (ascii_of_N (Z.to_N (n mod 256))) EmptyString
  end.

Definition c10_str (msg : list msg_arg) : string :=
  String.concat "" (map stream msg).

(** The device both factories settle on (lines 84-87 and 120-123, the same
    text twice), as a function of the [device] argument. *)
Definition target_device (device : option Device) : Device :=
  let target_device := value_or device (mkDevice PrivateUse1 0) in
  if negb (DeviceType_eqb (type target_device) PrivateUse1)
  then mkDevice PrivateUse1 (index target_device)
  else target_device.

(** ** A backend double

    A backend to run the functions on: it answers every callback with a
    fixed reaction, except that storage ids are minted from a counter, which
    is its only state. *)
Record double : Type := mkDouble {
  on_getDevice : pyresult;
  on_deviceCount : pyresult;
  on_create : pyresult;
  on_free : pyresult;
  on_copy : pyresult
}.

Definition double_backend (d : double) (last_id : Z) (name : method)
    (args : list pyobj) : pyresult * Z :=
  match name with
  | getDevice => (on_getDevice d, last_id)
  | deviceCount => (on_deviceCount d, last_id)
  | kGenerateStorageIdMethod => (PyReturn (PyInt (last_id + 1)), last_id + 1)
  | kCreateStorageMethod => (on_create d, last_id)
  | kFreeStorageMethod => (on_free d, last_id)
  | copy_data_by_id => (on_copy d, last_id)
  end.

(** One device, every request granted. *)
Definition healthy : double :=
  mkDouble (PyReturn (PyInt 0)) (PyReturn (PyInt 1)) (PyReturn (PyBool true))
    (PyReturn PyNone) (PyReturn PyNone).

(** As [healthy], but storage creation reports failure. *)
Definition out_of_memory : double :=
  mkDouble (PyReturn (PyInt 0)) (PyReturn (PyInt 1)) (PyReturn (PyBool false))
    (PyReturn PyNone) (PyReturn PyNone).

(** As [healthy], with two hundred devices. *)
Definition large_cluster : double :=
  mkDouble (PyReturn (PyInt 0)) (PyReturn (PyInt 200)) (PyReturn (PyBool true))
    (PyReturn PyNone) (PyReturn PyNone).

(** A backend that is going away: freeing raises. *)
Definition torn_down : double :=
  mkDouble (PyReturn (PyInt 0)) (PyRaise "RuntimeError")
    (PyReturn (PyBool true)) (PyRaise "RuntimeError") (PyRaise "RuntimeError").

(** As [healthy], with four devices. *)
Definition four_devices : double :=
  mkDouble (PyReturn (PyInt 0)) (PyReturn (PyInt 4)) (PyReturn (PyBool true))
    (PyReturn PyNone) (PyReturn PyNone).

(** A backend that cannot tell its current device. *)
Definition no_device : double :=
  mkDouble (PyRaise "RuntimeError") (PyReturn (PyInt 1))
    (PyReturn (PyBool true)) (PyReturn PyNone) (PyReturn PyNone).

(** As [healthy], but copying answers [False]. *)
Definition copy_refused : double :=
  mkDouble (PyReturn (PyInt 0)) (PyReturn (PyInt 1)) (PyReturn (PyBool true))
    (PyReturn PyNone) (PyReturn (PyBool false)).

(** A remote tensor and a CPU tensor to try the view operations on. *)
Definition remote_tensor : Tensor :=
  let p := mkDataPtr 7 7 (ReportAndDelete_ptr kFreeStorageMethod)
             (mkDevice PrivateUse1 0) in
  mkTensor (mkStorage p 16) [4; 4] [4; 1] 0 Byte (mkDevice PrivateUse1 0).

Definition cpu_tensor : Tensor :=
  let p := mkDataPtr 4096 4096 (ReportAndDelete_ptr kFreeStorageMethod)
             (mkDevice CPU (-1)) in
  mkTensor (mkStorage p 16) [4; 4] [4; 1] 0 Byte (mkDevice CPU (-1)).

(** ** The monad of the file *)

Section Remote.

(** The Python object behind [get_method]: some state of its own and a
    reaction to every call. *)
Variable backend_state : Type.
Variable backend :
  backend_state -> method -> list pyobj -> pyresult * backend_state.

Record World : Type := mkWorld {
  remote : backend_state;      (* the far side *)
  trace : list call;           (* calls issued so far, oldest first *)
  log : list exn               (* failures reported locally *)
}.

Definition M (A : Type) : Type := World -> outcome A * World.

Definition ret {A : Type} (a : A) : M A := fun w => (Returns a, w).

Definition throw {A : Type} (e : exn) : M A := fun w => (Throws e, w).

Definition bind {A B : Type} (m : M A) (f : A -> M B) : M B :=
  fun w =>
    match m w with
    | (Returns a, w') => f a w'
    | (Throws e, w') => (Throws e, w')
    end.

Notation "x <- m ;; k" := (bind m (fun x => k))
  (at level 100, m at next level, right associativity).
Notation "m ;;; k" := (bind m (fun _ => k))
  (at level 100, right associativity).

(** [try { body } catch (...) { handler }]. *)
Definition try_catch {A : Type} (body : M A) (handler : exn -> M A) : M A :=
  fun w =>
    match body w with
    | (Returns a, w') => (Returns a, w')
    | (Throws e, w') => handler e w'
    end.

(** [get_method(name)(args...)]: the call is recorded, the backend reacts,
    and a Python exception surfaces as [py::error_already_set]. *)
Definition get_method (name : method) (args : list pyobj) : M pyobj :=
  fun w =>
    let '(r, s) := backend (remote w) name args in
    let w' := mkWorld s (trace w ++ [Call name args]) (log w) in
    match r with
    | PyReturn v => (Returns v, w')
    | PyRaise e => (Throws (error_already_set e), w')
    end.

(** [.cast<T>()] on the returned object. *)
Definition cast {A : Type} (c : pyobj -> option A) (v : pyobj) : M A :=
  match c v with
  | Some a => ret a
  | None => throw cast_error
  end.

Definition TORCH_CHECK (cond : bool) (msg : list msg_arg) : M unit :=
  if cond then ret tt else throw (c10_Error msg).

(** Appends to the local report log. *)
Definition report (e : exn) : M unit :=
  fun w => (Returns tt, mkWorld (remote w) (trace w) (log w ++ [e])).

(** ** RemoteAllocator *)

(** [RemoteAllocator::allocate], lines 21-42. *)
Definition allocate (nbytes : Z) : M DataPtr :=
  v <- get_method getDevice [] ;;
  curr_device_idx <- cast cast_DeviceIndex v ;;
  let curr_device := mkDevice PrivateUse1 curr_device_idx in
  let data := nullptr in
  v <- get_method kGenerateStorageIdMethod [] ;;
  storage_id <- cast cast_storage_id_t v ;;
  v <- get_method kCreateStorageMethod
         [PyInt storage_id; PyInt nbytes; PyInt curr_device_idx] ;;
  success <- cast cast_bool v ;;
  TORCH_CHECK success
    [Str "Failed to allocate storage with ID "; UInt64 storage_id;
     Str " ("; SizeT nbytes; Str " bytes) on remote device ";
     DevIdx curr_device_idx] ;;;
  let data := reinterpret_cast_voidp storage_id in
  ret (mkDataPtr data data (ReportAndDelete_ptr kFreeStorageMethod) curr_device).

(** [RemoteAllocator::raw_deleter], lines 44-46. *)
Definition raw_deleter : DeleterFnPtr := ReportAndDelete_ptr kFreeStorageMethod.

(** [RemoteAllocator::copy_data], lines 48-54. *)
Definition copy_data (dest src : voidp) (count : Z) : M unit :=
  let dest_id := reinterpret_cast_storage_id_t dest in
  let src_id := reinterpret_cast_storage_id_t src in
  get_method copy_data_by_id [PyInt dest_id; PyInt src_id; PyInt count] ;;;
  ret tt.

(** Modelled from the spec: the deleter template [ReportAndDelete<name>],
    whose address [allocate] and [raw_deleter] hand to the framework, is
    declared outside the source files.  Spec 4.1, free(ref): it "reinterprets
    the reference into a handle and issues a free storage callback"; "any
    failure here is reported (e.g., logged) but must not raise past this
    boundary"; spec 9: "wrap the backend call in a local result type; on
    failure, record/log and return normally". *)
Definition ReportAndDelete (name : method) (ptr : voidp) : M unit :=
  try_catch
    (get_method name [PyInt (reinterpret_cast_storage_id_t ptr)] ;;; ret tt)
    (fun e => report e).

(** Running a deleter function pointer on a data pointer. *)
Definition call_deleter (d : DeleterFnPtr) (ptr : voidp) : M unit :=
  match d with
  | ReportAndDelete_ptr name => ReportAndDelete name ptr
  end.

(** free(ref) of the spec: the framework runs the allocator's deleter. *)
Definition free (ref : voidp) : M unit := call_deleter raw_deleter ref.

(** ** Device validation *)

(** [validate_device_index], lines 64-72. *)
Definition validate_device_index (device_index : Z) : M bool :=
  try_catch
    (v <- get_method deviceCount [] ;;
     device_count <- cast cast_DeviceIndex v ;;
     ret ((0 <=? device_index) && (device_index <? device_count)))
    (fun _ => ret false).

(** ** The host framework

    What RemoteMem.cpp calls in ATen and c10 is not part of the repository
    and stays abstract.  The two generic factories receive the allocator and
    may call it; the guard brackets the code in its scope; the two CPU
    kernels are local functions of their arguments: they either return a
    descriptor or fail a check of their own, and have no access to the
    callback boundary. *)
Variable get_default_dtype_as_scalartype : ScalarType.
Variable DeviceGuard : forall A : Type, Device -> M A -> M A.
Variable empty_generic :
  list Z -> (Z -> M DataPtr) -> list DispatchKey -> ScalarType ->
  MemoryFormat -> M Tensor.
Variable empty_strided_generic :
  list Z -> list Z -> (Z -> M DataPtr) -> list DispatchKey -> ScalarType ->
  M Tensor.
Variable cpu_as_strided :
  Tensor -> list Z -> list Z -> option Z -> outcome Tensor.
Variable cpu_set_ :
  Tensor -> Storage -> Z -> list Z -> list Z -> outcome Tensor.

(** A local computation seen from the monad: the world is left alone. *)
Definition local {A : Type} (r : outcome A) : M A := fun w => (r, w).

(** [static RemoteAllocator global_remote_alloc], line 57. *)
Definition global_remote_alloc : Z -> M DataPtr := allocate.

(** ** Tensor factories *)

(** [empty_remote], lines 75-108. *)
Definition empty_remote (size : list Z) (dtype : option ScalarType)
    (layout : option Layout) (device : option Device)
    (pin_memory : option bool) (memory_format : option MemoryFormat)
    : M Tensor :=
  let target_device := value_or device (mkDevice PrivateUse1 0) in
  let target_device :=
    if negb (DeviceType_eqb (type target_device) PrivateUse1)
    then mkDevice PrivateUse1 (index target_device)
    else target_device in
  valid <- validate_device_index (index target_device) ;;
  TORCH_CHECK valid
    [Str "Invalid device index: "; DevIdx (index target_device)] ;;;
  let resolved_dtype := value_or dtype get_default_dtype_as_scalartype in
  let resolved_layout := value_or layout Strided in
  let resolved_memory_format := value_or memory_format Contiguous in
  TORCH_CHECK (Layout_eqb resolved_layout Strided)
    [Str "Only strided layout is supported"] ;;;
  TORCH_CHECK (negb (value_or pin_memory false))
    [Str "Pin memory is not supported on remote devices"] ;;;
  DeviceGuard _ target_device
    (let remote_dks := [DispatchKey_PrivateUse1] in
     empty_generic size global_remote_alloc remote_dks resolved_dtype
       resolved_memory_format).

(** [empty_strided_remote], lines 111-143. *)
Definition empty_strided_remote (size stride : list Z)
    (dtype : option ScalarType) (layout : option Layout)
    (device : option Device) (pin_memory : option bool) : M Tensor :=
  let target_device := value_or device (mkDevice PrivateUse1 0) in
  let target_device :=
    if negb (DeviceType_eqb (type target_device) PrivateUse1)
    then mkDevice PrivateUse1 (index target_device)
    else target_device in
  valid <- validate_device_index (index target_device) ;;
  TORCH_CHECK valid
    [Str "Invalid device index: "; DevIdx (index target_device)] ;;;
  let resolved_dtype := value_or dtype get_default_dtype_as_scalartype in
  let resolved_layout := value_or layout Strided in
  TORCH_CHECK (Layout_eqb resolved_layout Strided)
    [Str "Only strided layout is supported"] ;;;
  TORCH_CHECK (negb (value_or pin_memory false))
    [Str "Pin memory is not supported on remote devices"] ;;;
  DeviceGuard _ target_device
    (let remote_dks := [DispatchKey_PrivateUse1] in
     empty_strided_generic size stride global_remote_alloc remote_dks
       resolved_dtype).

(** ** Local view operations *)

(** [as_strided_remote], lines 146-158. *)
Definition as_strided_remote (self : Tensor) (size stride : list Z)
    (storage_offset : option Z) : M Tensor :=
  TORCH_CHECK (DeviceType_eqb (type (tensor_device self)) PrivateUse1)
    [Str "as_strided_remote expects a remote tensor"] ;;;
  local (cpu_as_strided self size stride storage_offset).

(** [set_remote], lines 161-169; the returned descriptor is [result] after
    the update in place. *)
Definition set_remote (result : Tensor) (storage : Storage)
    (storage_offset : Z) (size stride : list Z) : M Tensor :=
  local (cpu_set_ result storage storage_offset size stride).



(** ** Stand-ins for the host framework, to run the examples *)

(** The world before any call. *)
Definition fresh_world (s : backend_state) : World := mkWorld s [] [].

(** A guard that leaves the device bookkeeping to the framework. *)
Definition plain_guard (A : Type) (d : Device) (body : M A) : M A := body.

(** One-byte-per-element factories over the given allocator. *)
Definition strided_factory (size stride : list Z) (alloc : Z -> M DataPtr)
    (dks : list DispatchKey) (dt : ScalarType) : M Tensor :=
  let n := fold_right Z.mul 1 size in
  p <- alloc n ;;
  ret (mkTensor (mkStorage p n) size stride 0 dt (device p)).

Definition contiguous_factory (size : list Z) (alloc : Z -> M DataPtr)
    (dks : list DispatchKey) (dt : ScalarType) (mf : MemoryFormat)
    : M Tensor :=
  strided_factory size (map (fun _ => 1) size) alloc dks dt.

(** A view constructor that insists on as many strides as sizes. *)
Definition view_of (self : Tensor) (size stride : list Z)
    (offset : option Z) : outcome Tensor :=
  if (List.length size =? List.length stride)%nat
  then Returns (mkTensor (storage self) size stride
                  (value_or offset (storage_offset self))
                  (dtype self) (tensor_device self))
  else Throws (c10_Error [Str "mismatch in length of strides and shape"]).

(** Rebinding a descriptor to a storage. *)
Definition rebind (result : Tensor) (st : Storage) (storage_offset : Z)
    (size stride : list Z) : outcome Tensor :=
  Returns (mkTensor st size stride storage_offset (dtype result)
             (tensor_device result)).

(** * Properties *)

(** Splits the next reaction of the backend, cast or check in the run [H]. *)
Ltac next_step H :=
  match type of H with
  | context [backend ?s ?m ?a] =>
      let r := fresh "r" in let s' := fresh "s" in let E := fresh "Ecall" in
      destruct (backend s m a) as [r s'] eqn:E; destruct r; cbn in H
  | context [match ?c ?v with Some _ => _ | None => _ end] =>
      let E := fresh "Ecast" in destruct (c v) eqn:E; cbn in H
  | context [if ?b then _ else _] =>
      let E := fresh "Echk" in destruct b eqn:E; cbn in H
  end; try discriminate.

Lemma cast_storage_id_t_range v id :
  cast_storage_id_t v = Some id -> 0 <= id <= uint64_max.
Proof.
  unfold cast_storage_id_t, cast_integral, is_uint64.
  destruct v as [| b | n | s]; try discriminate.
  - destruct b; simpl; intro H; injection H as <-; unfold uint64_max; lia.
  - destruct (0 <=? n) eqn:Hlo; destruct (n <=? uint64_max) eqn:Hhi;
      simpl; try discriminate.
    intro H; injection H as <-. lia.
Qed.

Lemma reinterpret_cast_voidp_id id :
  0 <= id <= uint64_max -> reinterpret_cast_voidp id = id.
Proof.
  unfold reinterpret_cast_voidp, pointer_bits, uint64_max.
  intros H. apply Z.mod_small. lia.
Qed.

Lemma reinterpret_cast_storage_id_t_id p :
  0 <= p <= uint64_max -> reinterpret_cast_storage_id_t p = p.
Proof.
  unfold reinterpret_cast_storage_id_t, uint64_max.
  intros H. apply Z.mod_small. lia.
Qed.

(** C1. A successful [allocate nbytes] has issued exactly three calls, in
    this order: [getDevice], whose answer converts to the device index;
    the id generator, whose answer converts to the storage id; and the
    storage creation with the arguments (id, nbytes, device index), which
    answered true.  The returned data pointer carries the id, bit for bit,
    as data and context, and is tagged with the remote device of that
    index. *)
Theorem allocate_success (nbytes : Z) (w w' : World) (p : DataPtr) :
  allocate nbytes w = (Returns p, w') ->
  exists v1 s1 idx v2 s2 id v3,
    backend (remote w) getDevice [] = (PyReturn v1, s1) /\
    cast_DeviceIndex v1 = Some idx /\
    backend s1 kGenerateStorageIdMethod [] = (PyReturn v2, s2) /\
    cast_storage_id_t v2 = Some id /\
    backend s2 kCreateStorageMethod [PyInt id; PyInt nbytes; PyInt idx]
      = (PyReturn v3, remote w') /\
    cast_bool v3 = Some true /\
    trace w' = trace w ++
      [Call getDevice []; Call kGenerateStorageIdMethod [];
       Call kCreateStorageMethod [PyInt id; PyInt nbytes; PyInt idx]] /\
    log w' = log w /\
    data p = id /\ ctx p = id /\
    deleter p = ReportAndDelete_ptr kFreeStorageMethod /\
    device p = mkDevice PrivateUse1 idx.
Proof.
  intro H.
  unfold allocate, bind, get_method, cast, TORCH_CHECK, ret, throw in H.
  cbn in H.
  repeat next_step H.
  injection H as <- <-. cbn.
  pose proof (cast_storage_id_t_range _ _ Ecast0) as Hid.
  rewrite (reinterpret_cast_voidp_id _ Hid).
  exists v, s, z, v0, s0, z0, v1.
  rewrite <- !app_assoc. simpl.
  repeat split; auto.
Qed.

(** The run of [copy_data], whatever the backend does. *)
Lemma copy_data_run (dest src : voidp) (count : Z) (w : World) :
  let args := [PyInt (reinterpret_cast_storage_id_t dest);
               PyInt (reinterpret_cast_storage_id_t src); PyInt count] in
  copy_data dest src count w =
    (match fst (backend (remote w) copy_data_by_id args) with
     | PyReturn _ => Returns tt
     | PyRaise e => Throws (error_already_set e)
     end,
     mkWorld (snd (backend (remote w) copy_data_by_id args))
       (trace w ++ [Call copy_data_by_id args]) (log w)).
Proof.
  unfold copy_data, bind, get_method, ret. cbn.
  destruct (backend (remote w) copy_data_by_id _) as [[v | e] s];
    reflexivity.
Qed.

(** C2. The data pointer and the storage id are the same 64 bits: casting
    an id to a pointer changes nothing and casting back returns the id.  The
    pointer [allocate] returns reads back as the id that was registered with
    the backend.  [copy_data] issues one call, [copy_data_by_id] with the ids
    read from the two pointers and the byte count unchanged, and nothing
    else: the world after it is the backend's reaction to that call, the
    report log is untouched, and a Python exception comes out as it is. *)
Theorem opaque_reference_roundtrip :
  (forall h, is_uint64 h = true ->
     reinterpret_cast_voidp h = h /\
     reinterpret_cast_storage_id_t (reinterpret_cast_voidp h) = h) /\
  (forall nbytes w p w',
     allocate nbytes w = (Returns p, w') ->
     In (Call kCreateStorageMethod
           [PyInt (reinterpret_cast_storage_id_t (data p)); PyInt nbytes;
            PyInt (index (device p))])
        (trace w')) /\
  (forall dest_id src_id count w,
     is_uint64 dest_id = true -> is_uint64 src_id = true ->
     let args := [PyInt dest_id; PyInt src_id; PyInt count] in
     copy_data (reinterpret_cast_voidp dest_id)
       (reinterpret_cast_voidp src_id) count w =
       (match fst (backend (remote w) copy_data_by_id args) with
        | PyReturn _ => Returns tt
        | PyRaise e => Throws (error_already_set e)
        end,
        mkWorld (snd (backend (remote w) copy_data_by_id args))
          (trace w ++ [Call copy_data_by_id args]) (log w))).
Proof.
  assert (Hrange : forall h, is_uint64 h = true -> 0 <= h <= uint64_max).
  { unfold is_uint64. intros h Hh.
    apply andb_true_iff in Hh as [Hlo Hhi].
    apply Z.leb_le in Hlo. apply Z.leb_le in Hhi. lia. }
  split; [| split].
  - intros h Hh. specialize (Hrange h Hh).
    rewrite (reinterpret_cast_voidp_id h Hrange).
    split; [reflexivity | now apply reinterpret_cast_storage_id_t_id].
  - intros nbytes w p w' Hrun.
    unfold allocate, bind, get_method, cast, TORCH_CHECK, ret, throw in Hrun.
    cbn in Hrun.
    repeat next_step Hrun.
    injection Hrun as <- <-. cbn [data device index trace].
    pose proof (cast_storage_id_t_range _ _ Ecast0) as Hid.
    rewrite (reinterpret_cast_voidp_id _ Hid).
    rewrite (reinterpret_cast_storage_id_t_id _ Hid).
    apply in_or_app. right. left. reflexivity.
  - intros dest_id src_id count w Hd Hs args.
    rewrite copy_data_run.
    rewrite (reinterpret_cast_voidp_id _ (Hrange _ Hd)).
    rewrite (reinterpret_cast_voidp_id _ (Hrange _ Hs)).
    rewrite (reinterpret_cast_storage_id_t_id _ (Hrange _ Hd)).
    rewrite (reinterpret_cast_storage_id_t_id _ (Hrange _ Hs)).
    reflexivity.
Qed.

(** X14. When the device query and the id generator answer with values
    that convert and the storage creation answers false (or [None], or 0),
    [allocate] throws to its caller the [c10::Error] of the check at lines
    35-36, after exactly the three calls. *)
Theorem allocate_create_failure (nbytes : Z) (w : World)
    (v1 v2 v3 : pyobj) (s1 s2 s3 : backend_state) (idx id : Z) :
  backend (remote w) getDevice [] = (PyReturn v1, s1) ->
  cast_DeviceIndex v1 = Some idx ->
  backend s1 kGenerateStorageIdMethod [] = (PyReturn v2, s2) ->
  cast_storage_id_t v2 = Some id ->
  backend s2 kCreateStorageMethod [PyInt id; PyInt nbytes; PyInt idx]
    = (PyReturn v3, s3) ->
  cast_bool v3 = Some false ->
  allocate nbytes w =
    (Throws (AllocationError id nbytes idx),
     mkWorld s3
       (trace w ++ [Call getDevice []; Call kGenerateStorageIdMethod [];
                    Call kCreateStorageMethod
                      [PyInt id; PyInt nbytes; PyInt idx]])
       (log w)).
Proof.
  intros E1 C1 E2 C2 E3 C3.
  unfold allocate, bind, get_method, cast, TORCH_CHECK, ret, throw. cbn.
  rewrite E1. cbn. rewrite C1. cbn. rewrite E2. cbn. rewrite C2. cbn.
  rewrite E3. cbn. rewrite C3. cbn.
  rewrite <- !app_assoc. reflexivity.
Qed.

(** C10. Whenever [allocate] throws a [c10::Error], it is the allocation
    error, raised after exactly three calls: the device query, the id
    generator, which minted the id, and the storage creation for that id,
    which answered false.  No call follows: none of the calls issued names
    the free method, the backend is left as the creation call left it, and
    the report log is unchanged. *)
Theorem allocate_failure_abandons_handle (nbytes : Z) (w w' : World)
    (msg : list msg_arg) :
  allocate nbytes w = (Throws (c10_Error msg), w') ->
  exists v1 s1 idx v2 s2 id v3 issued,
    backend (remote w) getDevice [] = (PyReturn v1, s1) /\
    cast_DeviceIndex v1 = Some idx /\
    backend s1 kGenerateStorageIdMethod [] = (PyReturn v2, s2) /\
    cast_storage_id_t v2 = Some id /\
    backend s2 kCreateStorageMethod [PyInt id; PyInt nbytes; PyInt idx]
      = (PyReturn v3, remote w') /\
    cast_bool v3 = Some false /\
    c10_Error msg = AllocationError id nbytes idx /\
    issued = [Call getDevice []; Call kGenerateStorageIdMethod [];
              Call kCreateStorageMethod
                [PyInt id; PyInt nbytes; PyInt idx]] /\
    trace w' = trace w ++ issued /\
    (forall c, In c issued -> call_method c <> kFreeStorageMethod) /\
    log w' = log w.
Proof.
  intro H.
  unfold allocate, bind, get_method, cast, TORCH_CHECK, ret, throw in H.
  cbn in H.
  repeat next_step H.
  injection H as <- <-. cbn.
  exists v, s, z, v0, s0, z0, v1. eexists.
  rewrite <- !app_assoc. cbn.
  repeat split; eauto.
  intros c [<- | [<- | [<- | []]]]; discriminate.
Qed.

(** The run of the deleter, whatever the backend does. *)
Lemma ReportAndDelete_run (name : method) (ptr : voidp) (w : World) :
  let args := [PyInt (reinterpret_cast_storage_id_t ptr)] in
  ReportAndDelete name ptr w =
    (Returns tt,
     mkWorld (snd (backend (remote w) name args))
       (trace w ++ [Call name args])
       (match fst (backend (remote w) name args) with
        | PyReturn _ => log w
        | PyRaise e => log w ++ [error_already_set e]
        end)).
Proof.
  unfold ReportAndDelete, try_catch, bind, get_method, ret, report. cbn.
  destruct (backend (remote w) name _) as [[v | e] s]; reflexivity.
Qed.

(** C8. [free] returns normally for every reference and every reaction of
    the free callback.  It issues that one call with the id read from the
    reference; when the callback raises, the failure is appended to the
    local report log instead of being thrown. *)
Theorem free_never_raises (ref : voidp) (w : World) :
  let args := [PyInt (reinterpret_cast_storage_id_t ref)] in
  fst (free ref w) = Returns tt /\
  trace (snd (free ref w)) = trace w ++ [Call kFreeStorageMethod args] /\
  remote (snd (free ref w))
    = snd (backend (remote w) kFreeStorageMethod args) /\
  log (snd (free ref w)) =
    match fst (backend (remote w) kFreeStorageMethod args) with
    | PyReturn _ => log w
    | PyRaise e => log w ++ [error_already_set e]
    end.
Proof.
  unfold free, raw_deleter, call_deleter.
  cbv zeta. rewrite ReportAndDelete_run. cbn. auto.
Qed.

(** The run of [validate_device_index], whatever the backend does: one
    call, and a boolean comes back. *)
Lemma validate_device_index_run (device_index : Z) (w : World) :
  validate_device_index device_index w =
    (Returns
       match fst (backend (remote w) deviceCount []) with
       | PyReturn v =>
           match cast_DeviceIndex v with
           | Some device_count =>
               (0 <=? device_index) && (device_index <? device_count)
           | None => false
           end
       | PyRaise _ => false
       end,
     mkWorld (snd (backend (remote w) deviceCount []))
       (trace w ++ [Call deviceCount []]) (log w)).
Proof.
  unfold validate_device_index, try_catch, bind, get_method, cast, ret,
    throw. cbn.
  destruct (backend (remote w) deviceCount []) as [[v | e] s]; cbn;
    [destruct (cast_DeviceIndex v) |]; reflexivity.
Qed.

(** C4, amended.  [validate_device_index] never throws.  When the count
    query returns a value that converts to a [DeviceIndex] (an integer
    from -128 to 127), the answer is true exactly when
    [0 <= index < count]; when the returned value does not convert, or the
    query raises, the answer is false. *)
Theorem validate_device_index_spec (device_index : Z) (w : World) :
  (exists b, fst (validate_device_index device_index w) = Returns b) /\
  (forall v s device_count,
     backend (remote w) deviceCount [] = (PyReturn v, s) ->
     cast_DeviceIndex v = Some device_count ->
     (fst (validate_device_index device_index w) = Returns true <->
      0 <= device_index < device_count)) /\
  (forall v s,
     backend (remote w) deviceCount [] = (PyReturn v, s) ->
     cast_DeviceIndex v = None ->
     fst (validate_device_index device_index w) = Returns false) /\
  (forall e s,
     backend (remote w) deviceCount [] = (PyRaise e, s) ->
     fst (validate_device_index device_index w) = Returns false).
Proof.
  rewrite validate_device_index_run. cbn [fst].
  split; [eexists; reflexivity |].
  split; [| split].
  - intros v s device_count E C. rewrite E. cbn [fst]. rewrite C.
    split.
    + intro H. injection H as H.
      apply andb_true_iff in H as [Hlo Hhi].
      apply Z.leb_le in Hlo. apply Z.ltb_lt in Hhi. lia.
    + intros [Hlo Hhi]. f_equal. apply andb_true_iff.
      split; [now apply Z.leb_le | now apply Z.ltb_lt].
  - intros v s E C. rewrite E. cbn [fst]. now rewrite C.
  - intros e s E. now rewrite E.
Qed.

(** How both factories start: the count query, then the first check. *)
Lemma factory_prefix (A : Type) (idx : Z) (k : M A) (w : World) :
  (valid <- validate_device_index idx ;;
   TORCH_CHECK valid [Str "Invalid device index: "; DevIdx idx] ;;; k) w =
  match validate_device_index idx w with
  | (Returns true, w1) => k w1
  | (Returns false, w1) => (Throws (InvalidDeviceError idx), w1)
  | (Throws e, w1) => (Throws e, w1)
  end.
Proof.
  unfold bind at 1.
  destruct (validate_device_index idx w) as [[[|] | e] w1]; reflexivity.
Qed.

Lemma Layout_eqb_eq (a b : Layout) : Layout_eqb a b = true <-> a = b.
Proof. destruct a, b; cbn; split; intro; congruence. Qed.

Lemma DeviceType_eqb_eq (a b : DeviceType) :
  DeviceType_eqb a b = true <-> a = b.
Proof. destruct a, b; cbn; split; intro; congruence. Qed.

(** C5, amended.  Once the resolved device index has passed validation,
    [empty_remote] with a layout that does not resolve to strided throws
    the layout error, whatever size, dtype, pin_memory and memory format
    are; with a layout that resolves to strided and pin_memory resolving
    to true it throws the pinned-memory error, whatever size, dtype and
    memory format are.  Neither run issues a call beyond the count query
    of the validation. *)
Theorem empty_remote_rejects_layout_and_pinning
    (size : list Z) (dtype : option ScalarType) (layout : option Layout)
    (device : option Device) (pin_memory : option bool)
    (memory_format : option MemoryFormat) (w w1 : World) :
  validate_device_index (index (target_device device)) w
    = (Returns true, w1) ->
  (value_or layout Strided <> Strided ->
   empty_remote size dtype layout device pin_memory memory_format w
     = (Throws UnsupportedLayoutError, w1)) /\
  (value_or layout Strided = Strided ->
   value_or pin_memory false = true ->
   empty_remote size dtype layout device pin_memory memory_format w
     = (Throws UnsupportedFeatureError, w1)).
Proof.
  intro Hvalid. unfold empty_remote. fold (target_device device).
  cbv zeta. rewrite factory_prefix, Hvalid.
  split.
  - intro Hlayout. unfold bind, TORCH_CHECK, throw.
    destruct (Layout_eqb (value_or layout Strided) Strided) eqn:E;
      [| reflexivity].
    apply Layout_eqb_eq in E. contradiction.
  - intros Hlayout Hpin. unfold bind, TORCH_CHECK, throw, ret.
    rewrite Hlayout, Hpin. reflexivity.
Qed.

(** X13. In both factories: without a device argument the target is the
    remote device of index 0; a device of another type becomes the remote
    device of the same index; the index of the target is what is
    validated; when validation answers false the factory throws the
    [c10::Error] of the check at lines 90-91 and 126-127, built from that
    index; and when every check passes, the generic factory runs under a
    guard bound to the target. *)
Theorem factories_resolve_and_validate_device :
  target_device None = mkDevice PrivateUse1 0 /\
  (forall d, type d <> PrivateUse1 ->
     target_device (Some d) = mkDevice PrivateUse1 (index d)) /\
  (forall size stride dtype layout device pin_memory memory_format w w1,
     validate_device_index (index (target_device device)) w
       = (Returns false, w1) ->
     empty_remote size dtype layout device pin_memory memory_format w
       = (Throws (InvalidDeviceError (index (target_device device))), w1) /\
     empty_strided_remote size stride dtype layout device pin_memory w
       = (Throws (InvalidDeviceError (index (target_device device))), w1))
  /\
  (forall size stride dtype layout device pin_memory memory_format w w1,
     validate_device_index (index (target_device device)) w
       = (Returns true, w1) ->
     value_or layout Strided = Strided ->
     value_or pin_memory false = false ->
     empty_remote size dtype layout device pin_memory memory_format w
       = DeviceGuard _ (target_device device)
           (empty_generic size allocate [DispatchKey_PrivateUse1]
              (value_or dtype get_default_dtype_as_scalartype)
              (value_or memory_format Contiguous)) w1 /\
     empty_strided_remote size stride dtype layout device pin_memory w
       = DeviceGuard _ (target_device device)
           (empty_strided_generic size stride allocate
              [DispatchKey_PrivateUse1]
              (value_or dtype get_default_dtype_as_scalartype)) w1).
Proof.
  split; [reflexivity |].
  split.
  { intros [t i] Ht. cbn in Ht. destruct t; cbn; congruence. }
  split.
  - intros size stride dtype layout device pin_memory memory_format w w1
      Hinvalid.
    unfold empty_remote, empty_strided_remote.
    fold (target_device device). cbv zeta.
    rewrite !factory_prefix, Hinvalid.
    split; reflexivity.
  - intros size stride dtype layout device pin_memory memory_format w w1
      Hvalid Hlayout Hpin.
    unfold empty_remote, empty_strided_remote.
    fold (target_device device). cbv zeta.
    rewrite !factory_prefix, Hvalid.
    unfold bind, TORCH_CHECK, ret, global_remote_alloc.
    rewrite Hlayout, Hpin. cbn. split; reflexivity.
Qed.

(** C9. [set_remote] checks nothing: for every tensor, of whatever device
    type, its outcome is the outcome of the CPU [set_] on the same
    arguments and the world is untouched.  In particular a tensor that
    [as_strided_remote] turns down with the precondition error is passed
    on by [set_remote]. *)
Theorem set_remote_forwards (result : Tensor) (st : Storage)
    (offset : Z) (size stride : list Z) (w : World) :
  set_remote result st offset size stride w
    = (cpu_set_ result st offset size stride, w) /\
  (type (tensor_device result) <> PrivateUse1 ->
   fst (as_strided_remote result size stride (Some offset) w)
     = Throws PreconditionError /\
   fst (set_remote result st offset size stride w)
     = cpu_set_ result st offset size stride).
Proof.
  split; [reflexivity |].
  intro Hdev. split; [| reflexivity].
  unfold as_strided_remote, bind, TORCH_CHECK, throw.
  destruct (DeviceType_eqb (type (tensor_device result)) PrivateUse1) eqn:E;
    [| reflexivity].
  apply DeviceType_eqb_eq in E. contradiction.
Qed.

(** ** Further properties of the allocator *)

(** Splits the next reaction of the backend, cast or check in the goal. *)
Ltac split_run :=
  repeat match goal with
  | |- context [backend ?st ?name ?args] =>
      let E := fresh "Ecall" in
      destruct (backend st name args) as [[?v | ?e] ?s] eqn:E; cbn
  | |- context [match ?c ?x with Some _ => _ | None => _ end] =>
      let E := fresh "Ecast" in destruct (c x) eqn:E; cbn
  | |- context [if ?b then _ else _] =>
      let E := fresh "Echk" in destruct b eqn:E; cbn
  end.

Lemma cast_DeviceIndex_range v idx :
  cast_DeviceIndex v = Some idx -> DeviceIndex_min <= idx <= DeviceIndex_max.
Proof.
  unfold cast_DeviceIndex, cast_integral, is_DeviceIndex.
  destruct v as [| b | n | s]; try discriminate.
  - destruct b; cbn; intro H; injection H as <-;
      unfold DeviceIndex_min, DeviceIndex_max; lia.
  - destruct (DeviceIndex_min <=? n) eqn:Hlo;
      destruct (n <=? DeviceIndex_max) eqn:Hhi; cbn; try discriminate.
    intro H; injection H as <-. lia.
Qed.

(** X1. Whatever the backend does and however [allocate] ends, it has
    added to the trace one, two or three calls: the device query, then the
    id generator, then the storage creation.  It never queries the device
    count, never copies and never frees, and it leaves the report log
    alone. *)
Theorem allocate_footprint (nbytes : Z) (w : World) :
  exists issued,
    trace (snd (allocate nbytes w)) = trace w ++ issued /\
    log (snd (allocate nbytes w)) = log w /\
    (issued = [Call getDevice []] \/
     issued = [Call getDevice []; Call kGenerateStorageIdMethod []] \/
     exists id idx,
       issued = [Call getDevice []; Call kGenerateStorageIdMethod [];
                 Call kCreateStorageMethod
                   [PyInt id; PyInt nbytes; PyInt idx]]).
Proof.
  unfold allocate, bind, get_method, cast, TORCH_CHECK, ret, throw. cbn.
  split_run;
    (eexists; split;
     [rewrite <- ?app_assoc; cbn; reflexivity
     | split; [reflexivity | eauto 6]]).
Qed.

(** X2. [allocate] stops at the first step that goes wrong and issues no
    later call.  A device query that raises, or whose answer is not a
    device index, ends it before an id is minted; an id generator that
    raises, or whose answer is not a 64-bit unsigned integer, ends it
    before any storage is requested; a storage creation that raises, or
    whose answer has no truth value, ends it after the third call.  A
    Python exception comes out as itself, a failed conversion as
    [cast_error]. *)
Theorem allocate_stops_at_first_failure (nbytes : Z) (w : World) :
  (forall e s1,
     backend (remote w) getDevice [] = (PyRaise e, s1) ->
     allocate nbytes w =
       (Throws (error_already_set e),
        mkWorld s1 (trace w ++ [Call getDevice []]) (log w))) /\
  (forall v1 s1,
     backend (remote w) getDevice [] = (PyReturn v1, s1) ->
     cast_DeviceIndex v1 = None ->
     allocate nbytes w =
       (Throws cast_error,
        mkWorld s1 (trace w ++ [Call getDevice []]) (log w))) /\
  (forall v1 s1 idx r s2,
     backend (remote w) getDevice [] = (PyReturn v1, s1) ->
     cast_DeviceIndex v1 = Some idx ->
     backend s1 kGenerateStorageIdMethod [] = (r, s2) ->
     let w2 := mkWorld s2
                 (trace w ++ [Call getDevice [];
                              Call kGenerateStorageIdMethod []]) (log w) in
     (forall e, r = PyRaise e ->
        allocate nbytes w = (Throws (error_already_set e), w2)) /\
     (forall v2, r = PyReturn v2 -> cast_storage_id_t v2 = None ->
        allocate nbytes w = (Throws cast_error, w2))) /\
  (forall v1 s1 idx v2 s2 id r s3,
     backend (remote w) getDevice [] = (PyReturn v1, s1) ->
     cast_DeviceIndex v1 = Some idx ->
     backend s1 kGenerateStorageIdMethod [] = (PyReturn v2, s2) ->
     cast_storage_id_t v2 = Some id ->
     backend s2 kCreateStorageMethod [PyInt id; PyInt nbytes; PyInt idx]
       = (r, s3) ->
     let w3 := mkWorld s3
                 (trace w ++ [Call getDevice [];
                              Call kGenerateStorageIdMethod [];
                              Call kCreateStorageMethod
                                [PyInt id; PyInt nbytes; PyInt idx]])
                 (log w) in
     (forall e, r = PyRaise e ->
        allocate nbytes w = (Throws (error_already_set e), w3)) /\
     (forall v3, r = PyReturn v3 -> cast_bool v3 = None ->
        allocate nbytes w = (Throws cast_error, w3))).
Proof.
  unfold allocate, bind, get_method, cast, TORCH_CHECK, ret, throw. cbn.
  repeat split.
  - intros e s1 E1. rewrite E1. reflexivity.
  - intros v1 s1 E1 C1. rewrite E1. cbn. rewrite C1. reflexivity.
  - intros e ->. rewrite H. cbn. rewrite H0. cbn. rewrite H1. cbn.
    rewrite <- app_assoc. reflexivity.
  - intros v2 -> C2. rewrite H. cbn. rewrite H0. cbn. rewrite H1. cbn.
    rewrite C2. cbn. rewrite <- app_assoc. reflexivity.
  - intros e ->. rewrite H. cbn. rewrite H0. cbn. rewrite H1. cbn.
    rewrite H2. cbn. rewrite H3. cbn. rewrite <- !app_assoc. reflexivity.
  - intros v3 -> C3. rewrite H. cbn. rewrite H0. cbn. rewrite H1. cbn.
    rewrite H2. cbn. rewrite H3. cbn. rewrite C3. cbn.
    rewrite <- !app_assoc. reflexivity.
Qed.

(** X3. When the device query and the id generator answer values that
    convert and the storage creation answers true, [allocate] returns.
    The data pointer is the minted id; nothing checks that id, so the
    pointer is null exactly when the generator answered 0. *)
Theorem allocate_succeeds (nbytes : Z) (w : World)
    (v1 v2 v3 : pyobj) (s1 s2 s3 : backend_state) (idx id : Z) :
  backend (remote w) getDevice [] = (PyReturn v1, s1) ->
  cast_DeviceIndex v1 = Some idx ->
  backend s1 kGenerateStorageIdMethod [] = (PyReturn v2, s2) ->
  cast_storage_id_t v2 = Some id ->
  backend s2 kCreateStorageMethod [PyInt id; PyInt nbytes; PyInt idx]
    = (PyReturn v3, s3) ->
  cast_bool v3 = Some true ->
  exists p,
    allocate nbytes w =
      (Returns p,
       mkWorld s3
         (trace w ++ [Call getDevice []; Call kGenerateStorageIdMethod [];
                      Call kCreateStorageMethod
                        [PyInt id; PyInt nbytes; PyInt idx]])
         (log w)) /\
    data p = id /\
    (data p = nullptr <-> id = 0).
Proof.
  intros E1 C1 E2 C2 E3 C3.
  unfold allocate, bind, get_method, cast, TORCH_CHECK, ret, throw. cbn.
  rewrite E1. cbn. rewrite C1. cbn. rewrite E2. cbn. rewrite C2. cbn.
  rewrite E3. cbn. rewrite C3. cbn.
  rewrite <- !app_assoc. cbn.
  eexists. split; [reflexivity |]. cbn.
  rewrite (reinterpret_cast_voidp_id _ (cast_storage_id_t_range _ _ C2)).
  unfold nullptr. tauto.
Qed.

(** X4. Every data pointer [allocate] returns is well formed for the
    framework: its deleter is the one [raw_deleter] announces, its context
    is its data, its data fits 64 unsigned bits, and its device is a
    remote device whose index is in the range of [DeviceIndex]. *)
Theorem allocate_data_ptr_invariants (nbytes : Z) (w w' : World)
    (p : DataPtr) :
  allocate nbytes w = (Returns p, w') ->
  deleter p = raw_deleter /\
  ctx p = data p /\
  0 <= data p <= uint64_max /\
  type (device p) = PrivateUse1 /\
  DeviceIndex_min <= index (device p) <= DeviceIndex_max.
Proof.
  intro H.
  unfold allocate, bind, get_method, cast, TORCH_CHECK, ret, throw in H.
  cbn in H.
  repeat next_step H.
  injection H as <- <-. cbn.
  pose proof (cast_storage_id_t_range _ _ Ecast0) as Hid.
  pose proof (cast_DeviceIndex_range _ _ Ecast) as Hidx.
  rewrite (reinterpret_cast_voidp_id _ Hid).
  unfold uint64_max, DeviceIndex_min, DeviceIndex_max in *.
  repeat split; try reflexivity; lia.
Qed.

(** X5. [copy_data] looks at nothing the callback returns: it returns
    normally exactly when the callback returns, whatever the value, and
    throws exactly when the callback raises, passing the Python exception
    on.  It never fails a check or a conversion of its own. *)
Theorem copy_data_ignores_answer (dest src : voidp) (count : Z)
    (w : World) :
  let args := [PyInt (reinterpret_cast_storage_id_t dest);
               PyInt (reinterpret_cast_storage_id_t src); PyInt count] in
  (fst (copy_data dest src count w) = Returns tt <->
   exists v, fst (backend (remote w) copy_data_by_id args) = PyReturn v) /\
  (forall x,
     fst (copy_data dest src count w) = Throws x <->
     exists e, x = error_already_set e /\
       fst (backend (remote w) copy_data_by_id args) = PyRaise e).
Proof.
  cbv zeta. rewrite copy_data_run. cbn [fst].
  destruct (fst (backend (remote w) copy_data_by_id _)) as [v | e].
  - split.
    + split; [eauto | reflexivity].
    + intro x. split; [discriminate |].
      intros (e & _ & He). discriminate.
  - split.
    + split; [discriminate |]. intros (v & Hv). discriminate.
    + intro x. split.
      * intro H. injection H as <-. eauto.
      * intros (e' & -> & He). injection He as ->. reflexivity.
Qed.

(** X6. Allocation and copy compose on the handles: after two successful
    allocations, copying from the first pointer to the second issues
    [copy_data_by_id] with the two ids that the two creation calls
    registered, the destination first. *)
Theorem allocate_then_copy (n1 n2 count : Z) (w w1 w2 : World)
    (p1 p2 : DataPtr) :
  allocate n1 w = (Returns p1, w1) ->
  allocate n2 w1 = (Returns p2, w2) ->
  trace (snd (copy_data (data p2) (data p1) count w2)) =
    trace w ++
      [Call getDevice []; Call kGenerateStorageIdMethod [];
       Call kCreateStorageMethod
         [PyInt (data p1); PyInt n1; PyInt (index (device p1))];
       Call getDevice []; Call kGenerateStorageIdMethod [];
       Call kCreateStorageMethod
         [PyInt (data p2); PyInt n2; PyInt (index (device p2))];
       Call copy_data_by_id
         [PyInt (data p2); PyInt (data p1); PyInt count]].
Proof.
  intros H1 H2.
  assert (Hinv : forall n u u' p,
            allocate n u = (Returns p, u') ->
            0 <= data p <= uint64_max /\
            trace u' = trace u ++
              [Call getDevice []; Call kGenerateStorageIdMethod [];
               Call kCreateStorageMethod
                 [PyInt (data p); PyInt n; PyInt (index (device p))]]).
  { intros n u u' p H.
    unfold allocate, bind, get_method, cast, TORCH_CHECK, ret, throw in H.
    cbn in H.
    repeat next_step H.
    injection H as <- <-. cbn.
    pose proof (cast_storage_id_t_range _ _ Ecast0) as Hid.
    rewrite (reinterpret_cast_voidp_id _ Hid).
    rewrite <- !app_assoc. cbn. auto. }
  destruct (Hinv _ _ _ _ H1) as [R1 T1].
  destruct (Hinv _ _ _ _ H2) as [R2 T2].
  rewrite copy_data_run. cbn [snd trace].
  rewrite (reinterpret_cast_storage_id_t_id _ R1).
  rewrite (reinterpret_cast_storage_id_t_id _ R2).
  rewrite T2, T1, <- !app_assoc. reflexivity.
Qed.

(** ** Further properties of the validation and the factories *)

(** X7. No backend can make [validate_device_index] accept a negative
    index or the index 127: the count itself has to fit a [DeviceIndex],
    so an accepted index lies between 0 and 126. *)
Theorem validate_device_index_accepts_in_range (device_index : Z)
    (w : World) :
  fst (validate_device_index device_index w) = Returns true ->
  0 <= device_index < DeviceIndex_max.
Proof.
  rewrite validate_device_index_run. cbn [fst].
  destruct (fst (backend (remote w) deviceCount [])) as [v | e];
    [| discriminate].
  destruct (cast_DeviceIndex v) as [device_count |] eqn:C; [| discriminate].
  intro H. injection H as H.
  apply andb_true_iff in H as [Hlo Hhi].
  apply Z.leb_le in Hlo. apply Z.ltb_lt in Hhi.
  pose proof (cast_DeviceIndex_range _ _ C). lia.
Qed.

(** X8. In one and the same world the accepted indices form an initial
    segment: below an accepted index, every index from 0 on is accepted
    too. *)
Theorem validate_device_index_downward_closed (i j : Z) (w : World) :
  fst (validate_device_index i w) = Returns true ->
  0 <= j <= i ->
  fst (validate_device_index j w) = Returns true.
Proof.
  rewrite !validate_device_index_run. cbn [fst].
  destruct (fst (backend (remote w) deviceCount [])) as [v | e];
    [| discriminate].
  destruct (cast_DeviceIndex v) as [device_count |]; [| discriminate].
  intros H Hj. injection H as H.
  apply andb_true_iff in H as [Hlo Hhi].
  apply Z.leb_le in Hlo. apply Z.ltb_lt in Hhi.
  f_equal. apply andb_true_iff.
  split; [apply Z.leb_le | apply Z.ltb_lt]; lia.
Qed.

Lemma target_device_index (d : Device) :
  index (target_device (Some d)) = index d.
Proof. destruct d as [[] i]; reflexivity. Qed.

(** X9. [empty_strided_remote] turns down layout and pinning as
    [empty_remote] does: once the resolved device index has passed
    validation, a layout that does not resolve to strided gives the layout
    error whatever size, stride, dtype and pin_memory are, and a strided
    layout with pin_memory resolving to true gives the pinned-memory
    error. *)
Theorem empty_strided_remote_rejects_layout_and_pinning
    (size stride : list Z) (dtype : option ScalarType)
    (layout : option Layout) (device : option Device)
    (pin_memory : option bool) (w w1 : World) :
  validate_device_index (index (target_device device)) w
    = (Returns true, w1) ->
  (value_or layout Strided <> Strided ->
   empty_strided_remote size stride dtype layout device pin_memory w
     = (Throws UnsupportedLayoutError, w1)) /\
  (value_or layout Strided = Strided ->
   value_or pin_memory false = true ->
   empty_strided_remote size stride dtype layout device pin_memory w
     = (Throws UnsupportedFeatureError, w1)).
Proof.
  intro Hvalid. unfold empty_strided_remote. fold (target_device device).
  cbv zeta. rewrite factory_prefix, Hvalid.
  split.
  - intro Hlayout. unfold bind, TORCH_CHECK, throw.
    destruct (Layout_eqb (value_or layout Strided) Strided) eqn:E;
      [| reflexivity].
    apply Layout_eqb_eq in E. contradiction.
  - intros Hlayout Hpin. unfold bind, TORCH_CHECK, throw, ret.
    rewrite Hlayout, Hpin. reflexivity.
Qed.

(** X10. A request that fails one of the three checks costs one call.
    When the validation answers false, or the layout does not resolve to
    strided, or pin_memory resolves to true, both factories throw the same
    [c10::Error] in the same world: the count query is the only call
    issued, so no id is minted, no storage is created and the guard is
    never entered. *)
Theorem factories_reject_before_allocating
    (size stride : list Z) (dtype : option ScalarType)
    (layout : option Layout) (device : option Device)
    (pin_memory : option bool) (memory_format : option MemoryFormat)
    (w : World) :
  fst (validate_device_index (index (target_device device)) w)
    = Returns false \/
  value_or layout Strided <> Strided \/
  value_or pin_memory false = true ->
  let w1 := mkWorld (snd (backend (remote w) deviceCount []))
              (trace w ++ [Call deviceCount []]) (log w) in
  exists msg,
    empty_remote size dtype layout device pin_memory memory_format w
      = (Throws (c10_Error msg), w1) /\
    empty_strided_remote size stride dtype layout device pin_memory w
      = (Throws (c10_Error msg), w1).
Proof.
  intros Hrej w1.
  unfold empty_remote, empty_strided_remote.
  fold (target_device device). cbv zeta.
  rewrite !factory_prefix.
  rewrite validate_device_index_run in *. cbn [fst] in Hrej. subst w1.
  match goal with
  | |- context [if ?b then _ else _] => destruct b eqn:Hb
  end.
  - unfold bind, TORCH_CHECK, throw, ret.
    destruct (Layout_eqb (value_or layout Strided) Strided) eqn:El.
    + apply Layout_eqb_eq in El.
      destruct (value_or pin_memory false) eqn:Ep; cbn.
      * eexists. split; reflexivity.
      * destruct Hrej as [H | [H | H]];
          [discriminate | contradiction | discriminate].
    + eexists. split; reflexivity.
  - eexists. split; reflexivity.
Qed.

(** X11. A device whose index is negative (a device given without an
    index carries -1) or is 127 or more is turned down by both factories
    with the invalid-device error for that index, whatever its type, the
    other arguments and the backend are. *)
Theorem factories_reject_index_out_of_range
    (size stride : list Z) (dtype : option ScalarType)
    (layout : option Layout) (d : Device) (pin_memory : option bool)
    (memory_format : option MemoryFormat) (w : World) :
  index d < 0 \/ DeviceIndex_max <= index d ->
  fst (empty_remote size dtype layout (Some d) pin_memory memory_format w)
    = Throws (InvalidDeviceError (index d)) /\
  fst (empty_strided_remote size stride dtype layout (Some d) pin_memory w)
    = Throws (InvalidDeviceError (index d)).
Proof.
  intro Hidx.
  assert (Hv : fst (validate_device_index (index d) w) = Returns false).
  { rewrite validate_device_index_run. cbn [fst].
    destruct (fst (backend (remote w) deviceCount [])) as [v | e];
      [| reflexivity].
    destruct (cast_DeviceIndex v) as [device_count |] eqn:C;
      [| reflexivity].
    pose proof (cast_DeviceIndex_range _ _ C). f_equal.
    destruct (0 <=? index d) eqn:Hlo; [| reflexivity].
    apply Z.leb_le in Hlo. apply Z.ltb_ge. lia. }
  unfold empty_remote, empty_strided_remote.
  fold (target_device (Some d)). cbv zeta.
  rewrite !factory_prefix, target_device_index.
  destruct (validate_device_index (index d) w) as [r w1].
  cbn [fst] in Hv. subst r. split; reflexivity.
Qed.

(** X12. Nothing about the device count is kept between calls: a second
    validation queries the backend again, in the state the first query
    left it in, and answers false when that second query raises, whatever
    the first validation answered. *)
Theorem validate_device_index_not_cached (i j : Z) (w : World) :
  let w1 := snd (validate_device_index i w) in
  remote w1 = snd (backend (remote w) deviceCount []) /\
  trace (snd (validate_device_index j w1)) =
    trace w ++ [Call deviceCount []; Call deviceCount []] /\
  (forall e s,
     backend (remote w1) deviceCount [] = (PyRaise e, s) ->
     fst (validate_device_index j w1) = Returns false).
Proof.
  cbv zeta. rewrite !validate_device_index_run. cbn [snd fst remote trace].
  rewrite <- app_assoc. cbn.
  repeat split. intros e s E. now rewrite E.
Qed.

End Remote.

Arguments mkWorld {backend_state} _ _ _.
Arguments remote {backend_state} _.
Arguments trace {backend_state} _.
Arguments log {backend_state} _.
Arguments fresh_world {backend_state} _.

(** * The text of the two messages that carry a device index *)

(** What the caller reads in the two errors, for every id, byte count and
    index: id and byte count in decimal, the index as one character. *)
Lemma AllocationError_text (storage_id nbytes device_index : Z) :
  c10_str
    [Str "Failed to allocate storage with ID "; UInt64 storage_id;
     Str " ("; SizeT nbytes; Str " bytes) on remote device ";
     DevIdx device_index]
  = ("Failed to allocate storage with ID " ++ decimal storage_id ++ " (" ++
     decimal nbytes ++ " bytes) on remote device " ++
     String (ascii_of_N (Z.to_N (device_index mod 256))) "")%string.
Proof. reflexivity. Qed.

Lemma InvalidDeviceError_text (device_index : Z) :
  c10_str [Str "Invalid device index: "; DevIdx device_index]
  = ("Invalid device index: " ++
     String (ascii_of_N (Z.to_N (device_index mod 256))) "")%string.
Proof. reflexivity. Qed.

(** That character is the decimal numeral of no device index. *)
Lemma stream_DevIdx_not_decimal (device_index : Z) :
  DeviceIndex_min <= device_index <= DeviceIndex_max ->
  stream (DevIdx device_index) <> decimal device_index.
Proof.
  intros Hrange.
  assert (Hall :
    forallb
      (fun k => negb (String.eqb (stream (DevIdx (Z.of_nat k - 128)))
                        (decimal (Z.of_nat k - 128))))
      (seq 0 256) = true) by (vm_compute; reflexivity).
  rewrite forallb_forall in Hall.
  unfold DeviceIndex_min, DeviceIndex_max in Hrange.
  specialize (Hall (Z.to_nat (device_index + 128))).
  rewrite Z2Nat.id in Hall by lia.
  replace (device_index + 128 - 128) with device_index in Hall by lia.
  apply String.eqb_neq, negb_true_iff, Hall.
  apply in_seq. lia.
Qed.

(** C3. The claim holds of the exception, and of the id and the byte count
    in its message, and fails on the device index.  On a backend whose
    device query answers 0, whose generator mints 1 and whose storage
    creation answers false, [allocate 16] throws the [c10::Error] of lines
    35-36; its text ends in the character of code 0, where the device
    index 0 was meant. *)
Theorem allocate_failure_text_streams_index_as_char :
  exists msg,
    fst (allocate Z (double_backend out_of_memory) 16 (fresh_world 0))
      = Throws (c10_Error msg) /\
    c10_str msg =
      ("Failed to allocate storage with ID 1 (16 bytes) on remote device "
       ++ String "000"%char "")%string /\
    c10_str msg <>
      "Failed to allocate storage with ID 1 (16 bytes) on remote device 0".
Proof.
  eexists. split; [reflexivity |].
  split; [reflexivity |].
  apply String.eqb_neq. reflexivity.
Qed.

(** C7. The claim holds of the resolution and of the validation, and fails
    on the text of the error.  With one device, both factories turn down
    the remote device 3 with the [c10::Error] of lines 90-91 and 126-127;
    its text ends in the character of code 3, where the index 3 was
    meant. *)
Theorem invalid_device_text_streams_index_as_char :
  exists msg,
    fst (empty_remote Z (double_backend healthy) Float (plain_guard Z)
           (contiguous_factory Z) [4; 4] (Some Float) None
           (Some (mkDevice PrivateUse1 3)) None None (fresh_world 0))
      = Throws (c10_Error msg) /\
    fst (empty_strided_remote Z (double_backend healthy) Float
           (plain_guard Z) (strided_factory Z) [4; 4] [4; 1] (Some Float)
           None (Some (mkDevice PrivateUse1 3)) None (fresh_world 0))
      = Throws (c10_Error msg) /\
    c10_str msg
      = ("Invalid device index: " ++ String "003"%char "")%string /\
    c10_str msg <> "Invalid device index: 3".
Proof.
  eexists. split; [reflexivity |].
  split; [reflexivity |].
  split; [reflexivity |].
  apply String.eqb_neq. reflexivity.
Qed.

(** * The strided view *)




(** * The properties on the backend double *)

(** C1 on the healthy double: sixteen bytes, first id 1. *)
Lemma allocate_success_witness :
  let p := mkDataPtr 1 1 (ReportAndDelete_ptr kFreeStorageMethod)
             (mkDevice PrivateUse1 0) in
  let issued := [Call getDevice []; Call kGenerateStorageIdMethod [];
                 Call kCreateStorageMethod [PyInt 1; PyInt 16; PyInt 0]] in
  allocate Z (double_backend healthy) 16 (fresh_world 0)
    = (Returns p, mkWorld 1 issued []) /\
  exists v1 s1 idx v2 s2 id v3,
    double_backend healthy 0 getDevice [] = (PyReturn v1, s1) /\
    cast_DeviceIndex v1 = Some idx /\
    double_backend healthy s1 kGenerateStorageIdMethod []
      = (PyReturn v2, s2) /\
    cast_storage_id_t v2 = Some id /\
    double_backend healthy s2 kCreateStorageMethod
      [PyInt id; PyInt 16; PyInt idx] = (PyReturn v3, 1) /\
    cast_bool v3 = Some true /\
    issued = [] ++
      [Call getDevice []; Call kGenerateStorageIdMethod [];
       Call kCreateStorageMethod [PyInt id; PyInt 16; PyInt idx]] /\
    @nil exn = [] /\
    data p = id /\ ctx p = id /\
    deleter p = ReportAndDelete_ptr kFreeStorageMethod /\
    device p = mkDevice PrivateUse1 idx.
Proof.
  cbv zeta. split; [reflexivity |].
  apply (allocate_success Z (double_backend healthy) 16 (fresh_world 0)
           (mkWorld 1 _ [])).
  reflexivity.
Defined.

(** C2 at the handle 7. *)
Lemma opaque_reference_roundtrip_witness :
  is_uint64 7 = true /\
  reinterpret_cast_voidp 7 = 7 /\
  reinterpret_cast_storage_id_t (reinterpret_cast_voidp 7) = 7.
Proof.
  split; [reflexivity |].
  apply (proj1 (opaque_reference_roundtrip Z (double_backend healthy)) 7).
  reflexivity.
Defined.

(** X14 on the double whose storage creation reports failure. *)
Lemma allocate_create_failure_witness :
  double_backend out_of_memory 0 getDevice [] = (PyReturn (PyInt 0), 0) /\
  cast_DeviceIndex (PyInt 0) = Some 0 /\
  double_backend out_of_memory 0 kGenerateStorageIdMethod []
    = (PyReturn (PyInt 1), 1) /\
  cast_storage_id_t (PyInt 1) = Some 1 /\
  double_backend out_of_memory 1 kCreateStorageMethod
    [PyInt 1; PyInt 16; PyInt 0] = (PyReturn (PyBool false), 1) /\
  cast_bool (PyBool false) = Some false /\
  allocate Z (double_backend out_of_memory) 16 (fresh_world 0) =
    (Throws (AllocationError 1 16 0),
     mkWorld 1
       ([] ++ [Call getDevice []; Call kGenerateStorageIdMethod [];
               Call kCreateStorageMethod [PyInt 1; PyInt 16; PyInt 0]])
       []).
Proof.
  repeat (split; [reflexivity |]).
  apply (allocate_create_failure Z (double_backend out_of_memory) 16
           (fresh_world 0) (PyInt 0) (PyInt 1) (PyBool false) 0 1 1 0 1);
    reflexivity.
Defined.

(** C10 on the double whose storage creation reports failure. *)
Lemma allocate_failure_abandons_handle_witness :
  let issued := [Call getDevice []; Call kGenerateStorageIdMethod [];
                 Call kCreateStorageMethod [PyInt 1; PyInt 16; PyInt 0]] in
  allocate Z (double_backend out_of_memory) 16 (fresh_world 0)
    = (Throws (AllocationError 1 16 0), mkWorld 1 issued []) /\
  exists v1 s1 idx v2 s2 id v3 issued',
    double_backend out_of_memory 0 getDevice [] = (PyReturn v1, s1) /\
    cast_DeviceIndex v1 = Some idx /\
    double_backend out_of_memory s1 kGenerateStorageIdMethod []
      = (PyReturn v2, s2) /\
    cast_storage_id_t v2 = Some id /\
    double_backend out_of_memory s2 kCreateStorageMethod
      [PyInt id; PyInt 16; PyInt idx] = (PyReturn v3, 1) /\
    cast_bool v3 = Some false /\
    AllocationError 1 16 0 = AllocationError id 16 idx /\
    issued' = [Call getDevice []; Call kGenerateStorageIdMethod [];
               Call kCreateStorageMethod [PyInt id; PyInt 16; PyInt idx]] /\
    issued = [] ++ issued' /\
    (forall c, In c issued' -> call_method c <> kFreeStorageMethod) /\
    @nil exn = [].
Proof.
  cbv zeta. split; [reflexivity |].
  apply (allocate_failure_abandons_handle Z (double_backend out_of_memory)
           16 (fresh_world 0) (mkWorld 1 _ [])).
  reflexivity.
Defined.

(** C8 on the double that is going away: the failure lands in the log. *)
Example free_during_teardown :
  free Z (double_backend torn_down) 7 (fresh_world 0)
    = (Returns tt,
       mkWorld 0 [Call kFreeStorageMethod [PyInt 7]]
         [error_already_set "RuntimeError"]).
Proof. reflexivity. Qed.

(** C4 as stated fails on a count outside the range of [DeviceIndex]: the
    double reports 200 devices, index 5 lies below 200, and the answer is
    false. *)
Lemma validate_device_index_large_count :
  double_backend large_cluster 0 deviceCount [] = (PyReturn (PyInt 200), 0) /\
  0 <= 5 < 200 /\
  fst (validate_device_index Z (double_backend large_cluster) 5
         (fresh_world 0)) = Returns false.
Proof. repeat split; reflexivity || lia. Qed.

(** C4, amended, on the healthy double: one device, index 0 is valid. *)
Lemma validate_device_index_spec_witness :
  double_backend healthy 0 deviceCount [] = (PyReturn (PyInt 1), 0) /\
  cast_DeviceIndex (PyInt 1) = Some 1 /\
  0 <= 0 < 1 /\
  fst (validate_device_index Z (double_backend healthy) 0 (fresh_world 0))
    = Returns true.
Proof.
  split; [reflexivity |]. split; [reflexivity |]. split; [lia |].
  apply (proj1 (proj2 (validate_device_index_spec Z (double_backend healthy)
                         0 (fresh_world 0)))
           (PyInt 1) 0 1); [reflexivity | reflexivity | lia].
Defined.

(** C5 as stated fails on the order of the checks.  With one device, a
    sparse layout on the remote device 3 is turned down for the device, not
    for the layout; and on the valid device 0, a sparse layout with pinned
    memory is turned down for the layout, not for the pinning. *)
Lemma empty_remote_checks_device_first :
  fst (empty_remote Z (double_backend healthy) Float (plain_guard Z)
         (contiguous_factory Z) [4; 4] (Some Float) (Some Sparse)
         (Some (mkDevice PrivateUse1 3)) None None (fresh_world 0))
    = Throws (InvalidDeviceError 3) /\
  InvalidDeviceError 3 <> UnsupportedLayoutError /\
  fst (empty_remote Z (double_backend healthy) Float (plain_guard Z)
         (contiguous_factory Z) [4; 4] (Some Float) (Some Sparse)
         (Some (mkDevice PrivateUse1 0)) (Some true) None (fresh_world 0))
    = Throws UnsupportedLayoutError /\
  UnsupportedLayoutError <> UnsupportedFeatureError.
Proof.
  split; [reflexivity |]. split; [discriminate |].
  split; [reflexivity | discriminate].
Qed.

(** C5, amended, on the healthy double and its device 0. *)
Lemma empty_remote_rejects_layout_and_pinning_witness :
  let w1 := mkWorld 0 [Call deviceCount []] [] in
  validate_device_index Z (double_backend healthy)
    (index (target_device (Some (mkDevice PrivateUse1 0)))) (fresh_world 0)
    = (Returns true, w1) /\
  value_or (Some Sparse) Strided <> Strided /\
  empty_remote Z (double_backend healthy) Float (plain_guard Z)
    (contiguous_factory Z) [4; 4] None (Some Sparse)
    (Some (mkDevice PrivateUse1 0)) None None (fresh_world 0)
    = (Throws UnsupportedLayoutError, w1) /\
  value_or (@None Layout) Strided = Strided /\
  value_or (Some true) false = true /\
  empty_remote Z (double_backend healthy) Float (plain_guard Z)
    (contiguous_factory Z) [4; 4] None None
    (Some (mkDevice PrivateUse1 0)) (Some true) None (fresh_world 0)
    = (Throws UnsupportedFeatureError, w1).
Proof.
  cbv zeta.
  split; [reflexivity |]. split; [discriminate |].
  split.
  - apply (proj1 (empty_remote_rejects_layout_and_pinning Z
                    (double_backend healthy) Float (plain_guard Z)
                    (contiguous_factory Z) [4; 4] None (Some Sparse)
                    (Some (mkDevice PrivateUse1 0)) None None
                    (fresh_world 0) _ eq_refl)).
    discriminate.
  - split; [reflexivity |]. split; [reflexivity |].
    apply (proj2 (empty_remote_rejects_layout_and_pinning Z
                    (double_backend healthy) Float (plain_guard Z)
                    (contiguous_factory Z) [4; 4] None None
                    (Some (mkDevice PrivateUse1 0)) (Some true) None
                    (fresh_world 0) _ eq_refl)); reflexivity.
Defined.

(** X13 on the healthy double: a CUDA device 3 is taken as the remote
    device 3, which one device does not have. *)
Lemma factories_resolve_and_validate_device_witness :
  let w1 := mkWorld 0 [Call deviceCount []] [] in
  type (mkDevice CUDA 3) <> PrivateUse1 /\
  target_device (Some (mkDevice CUDA 3)) = mkDevice PrivateUse1 3 /\
  validate_device_index Z (double_backend healthy)
    (index (target_device (Some (mkDevice CUDA 3)))) (fresh_world 0)
    = (Returns false, w1) /\
  empty_remote Z (double_backend healthy) Float (plain_guard Z)
    (contiguous_factory Z) [4; 4] None None (Some (mkDevice CUDA 3)) None
    None (fresh_world 0)
    = (Throws (InvalidDeviceError 3), w1) /\
  empty_strided_remote Z (double_backend healthy) Float (plain_guard Z)
    (strided_factory Z) [4; 4] [4; 1] None None (Some (mkDevice CUDA 3))
    None (fresh_world 0)
    = (Throws (InvalidDeviceError 3), w1).
Proof.
  cbv zeta.
  pose proof (factories_resolve_and_validate_device Z
                (double_backend healthy) Float (plain_guard Z)
                (contiguous_factory Z) (strided_factory Z))
    as (_ & Hcoerce & Hinvalid & _).
  split; [discriminate |].
  split; [apply Hcoerce; discriminate |].
  split; [reflexivity |].
  destruct (Hinvalid [4; 4] [4; 1] None None (Some (mkDevice CUDA 3)) None
              None (fresh_world 0) _ eq_refl) as (H1 & H2).
  split; [exact H1 | exact H2].
Defined.

(** C9 on the CPU tensor: [as_strided_remote] turns it down, [set_remote]
    rebinds it. *)
Lemma set_remote_forwards_witness :
  type (tensor_device cpu_tensor) <> PrivateUse1 /\
  fst (as_strided_remote Z view_of cpu_tensor [2; 2] [4; 1] (Some 1)
         (fresh_world 0)) = Throws PreconditionError /\
  fst (set_remote Z rebind cpu_tensor (storage remote_tensor) 1 [2; 2]
         [4; 1] (fresh_world 0))
    = Returns (mkTensor (storage remote_tensor) [2; 2] [4; 1] 1 Byte
                 (mkDevice CPU (-1))).
Proof.
  split; [discriminate |].
  apply (proj2 (set_remote_forwards Z view_of rebind cpu_tensor
                  (storage remote_tensor) 1 [2; 2] [4; 1] (fresh_world 0))).
  discriminate.
Defined.

(** * The further properties on the backend double *)

(** X2 on the double that cannot tell its device: one call, no id. *)
Lemma allocate_stops_at_first_failure_witness :
  double_backend no_device 0 getDevice [] = (PyRaise "RuntimeError", 0) /\
  allocate Z (double_backend no_device) 16 (fresh_world 0) =
    (Throws (error_already_set "RuntimeError"),
     mkWorld 0 [Call getDevice []] []).
Proof.
  split; [reflexivity |].
  apply (proj1 (allocate_stops_at_first_failure Z
                  (double_backend no_device) 16 (fresh_world 0))
           "RuntimeError" 0).
  reflexivity.
Defined.

(** X3 on the healthy double started one below zero: the id 0 is minted
    and the null pointer comes back. *)
Lemma allocate_succeeds_witness :
  double_backend healthy (-1) getDevice [] = (PyReturn (PyInt 0), -1) /\
  cast_DeviceIndex (PyInt 0) = Some 0 /\
  double_backend healthy (-1) kGenerateStorageIdMethod []
    = (PyReturn (PyInt 0), 0) /\
  cast_storage_id_t (PyInt 0) = Some 0 /\
  double_backend healthy 0 kCreateStorageMethod
    [PyInt 0; PyInt 16; PyInt 0] = (PyReturn (PyBool true), 0) /\
  cast_bool (PyBool true) = Some true /\
  exists p,
    allocate Z (double_backend healthy) 16 (fresh_world (-1)) =
      (Returns p,
       mkWorld 0
         ([] ++ [Call getDevice []; Call kGenerateStorageIdMethod [];
                 Call kCreateStorageMethod [PyInt 0; PyInt 16; PyInt 0]])
         []) /\
    data p = 0 /\
    (data p = nullptr <-> 0 = 0).
Proof.
  repeat (split; [reflexivity |]).
  apply (allocate_succeeds Z (double_backend healthy) 16 (fresh_world (-1))
           (PyInt 0) (PyInt 0) (PyBool true) (-1) 0 0 0 0);
    reflexivity.
Defined.

(** X4 on the healthy double. *)
Lemma allocate_data_ptr_invariants_witness :
  let p := mkDataPtr 1 1 (ReportAndDelete_ptr kFreeStorageMethod)
             (mkDevice PrivateUse1 0) in
  let w' := mkWorld 1
              [Call getDevice []; Call kGenerateStorageIdMethod [];
               Call kCreateStorageMethod [PyInt 1; PyInt 16; PyInt 0]] [] in
  allocate Z (double_backend healthy) 16 (fresh_world 0) = (Returns p, w') /\
  deleter p = raw_deleter /\
  ctx p = data p /\
  0 <= data p <= uint64_max /\
  type (device p) = PrivateUse1 /\
  DeviceIndex_min <= index (device p) <= DeviceIndex_max.
Proof.
  cbv zeta. split; [reflexivity |].
  apply (allocate_data_ptr_invariants Z (double_backend healthy) 16
           (fresh_world 0)
           (mkWorld 1
              [Call getDevice []; Call kGenerateStorageIdMethod [];
               Call kCreateStorageMethod [PyInt 1; PyInt 16; PyInt 0]] [])).
  reflexivity.
Defined.

(** X5 on the double whose copy answers [False]: the copy still returns
    normally. *)
Example copy_data_refused_returns :
  copy_data Z (double_backend copy_refused) 2 1 16 (fresh_world 2)
    = (Returns tt,
       mkWorld 2 [Call copy_data_by_id [PyInt 2; PyInt 1; PyInt 16]] []).
Proof. reflexivity. Qed.

(** X6 on the healthy double: ids 1 and 2, then the copy from 1 to 2. *)
Lemma allocate_then_copy_witness :
  let p1 := mkDataPtr 1 1 (ReportAndDelete_ptr kFreeStorageMethod)
              (mkDevice PrivateUse1 0) in
  let p2 := mkDataPtr 2 2 (ReportAndDelete_ptr kFreeStorageMethod)
              (mkDevice PrivateUse1 0) in
  let first := [Call getDevice []; Call kGenerateStorageIdMethod [];
                Call kCreateStorageMethod [PyInt 1; PyInt 16; PyInt 0]] in
  let second := [Call getDevice []; Call kGenerateStorageIdMethod [];
                 Call kCreateStorageMethod [PyInt 2; PyInt 32; PyInt 0]] in
  allocate Z (double_backend healthy) 16 (fresh_world 0)
    = (Returns p1, mkWorld 1 first []) /\
  allocate Z (double_backend healthy) 32 (mkWorld 1 first [])
    = (Returns p2, mkWorld 2 (first ++ second) []) /\
  trace (snd (copy_data Z (double_backend healthy) (data p2) (data p1) 16
                (mkWorld 2 (first ++ second) []))) =
    [] ++ first ++ second ++
      [Call copy_data_by_id [PyInt 2; PyInt 1; PyInt 16]].
Proof.
  cbv zeta. split; [reflexivity |]. split; [reflexivity |].
  apply (allocate_then_copy Z (double_backend healthy) 16 32 16
           (fresh_world 0)
           (mkWorld 1
              [Call getDevice []; Call kGenerateStorageIdMethod [];
               Call kCreateStorageMethod [PyInt 1; PyInt 16; PyInt 0]] [])
           (mkWorld 2
              [Call getDevice []; Call kGenerateStorageIdMethod [];
               Call kCreateStorageMethod [PyInt 1; PyInt 16; PyInt 0];
               Call getDevice []; Call kGenerateStorageIdMethod [];
               Call kCreateStorageMethod [PyInt 2; PyInt 32; PyInt 0]] [])
           (mkDataPtr 1 1 (ReportAndDelete_ptr kFreeStorageMethod)
              (mkDevice PrivateUse1 0))
           (mkDataPtr 2 2 (ReportAndDelete_ptr kFreeStorageMethod)
              (mkDevice PrivateUse1 0)));
    reflexivity.
Defined.

(** X7 on the double with four devices: index 3 is accepted. *)
Lemma validate_device_index_accepts_in_range_witness :
  fst (validate_device_index Z (double_backend four_devices) 3
         (fresh_world 0)) = Returns true /\
  0 <= 3 < DeviceIndex_max.
Proof.
  split; [reflexivity |].
  apply (validate_device_index_accepts_in_range Z
           (double_backend four_devices) 3 (fresh_world 0)).
  reflexivity.
Defined.

(** X8 on the same double: index 3 is accepted, hence index 1. *)
Lemma validate_device_index_downward_closed_witness :
  fst (validate_device_index Z (double_backend four_devices) 3
         (fresh_world 0)) = Returns true /\
  0 <= 1 <= 3 /\
  fst (validate_device_index Z (double_backend four_devices) 1
         (fresh_world 0)) = Returns true.
Proof.
  split; [reflexivity |]. split; [lia |].
  apply (validate_device_index_downward_closed Z
           (double_backend four_devices) 3 1 (fresh_world 0));
    [reflexivity | lia].
Defined.

(** X9 on the healthy double and its device 0. *)
Lemma empty_strided_remote_rejects_layout_and_pinning_witness :
  let w1 := mkWorld 0 [Call deviceCount []] [] in
  validate_device_index Z (double_backend healthy)
    (index (target_device (Some (mkDevice PrivateUse1 0)))) (fresh_world 0)
    = (Returns true, w1) /\
  value_or (Some SparseCsr) Strided <> Strided /\
  empty_strided_remote Z (double_backend healthy) Float (plain_guard Z)
    (strided_factory Z) [4; 4] [4; 1] None (Some SparseCsr)
    (Some (mkDevice PrivateUse1 0)) None (fresh_world 0)
    = (Throws UnsupportedLayoutError, w1) /\
  value_or (Some Strided) Strided = Strided /\
  value_or (Some true) false = true /\
  empty_strided_remote Z (double_backend healthy) Float (plain_guard Z)
    (strided_factory Z) [4; 4] [4; 1] None (Some Strided)
    (Some (mkDevice PrivateUse1 0)) (Some true) (fresh_world 0)
    = (Throws UnsupportedFeatureError, w1).
Proof.
  cbv zeta.
  split; [reflexivity |]. split; [discriminate |].
  split.
  - apply (proj1 (empty_strided_remote_rejects_layout_and_pinning Z
                    (double_backend healthy) Float (plain_guard Z)
                    (strided_factory Z) [4; 4] [4; 1] None (Some SparseCsr)
                    (Some (mkDevice PrivateUse1 0)) None
                    (fresh_world 0) _ eq_refl)).
    discriminate.
  - split; [reflexivity |]. split; [reflexivity |].
    apply (proj2 (empty_strided_remote_rejects_layout_and_pinning Z
                    (double_backend healthy) Float (plain_guard Z)
                    (strided_factory Z) [4; 4] [4; 1] None (Some Strided)
                    (Some (mkDevice PrivateUse1 0)) (Some true)
                    (fresh_world 0) _ eq_refl)); reflexivity.
Defined.

(** X10 on the healthy double: pinned memory on the default device. *)
Lemma factories_reject_before_allocating_witness :
  value_or (Some true) false = true /\
  exists msg,
    empty_remote Z (double_backend healthy) Float (plain_guard Z)
      (contiguous_factory Z) [4; 4] None None None (Some true) None
      (fresh_world 0)
      = (Throws (c10_Error msg), mkWorld 0 ([] ++ [Call deviceCount []]) [])
    /\
    empty_strided_remote Z (double_backend healthy) Float (plain_guard Z)
      (strided_factory Z) [4; 4] [4; 1] None None None (Some true)
      (fresh_world 0)
      = (Throws (c10_Error msg), mkWorld 0 ([] ++ [Call deviceCount []]) []).
Proof.
  split; [reflexivity |].
  apply (factories_reject_before_allocating Z (double_backend healthy)
           Float (plain_guard Z) (contiguous_factory Z) (strided_factory Z)
           [4; 4] [4; 1] None None None (Some true) None (fresh_world 0)).
  right. right. reflexivity.
Defined.

(** X11 on the healthy double: a remote device without an index. *)
Lemma factories_reject_index_out_of_range_witness :
  index (mkDevice PrivateUse1 (-1)) < 0 /\
  fst (empty_remote Z (double_backend healthy) Float (plain_guard Z)
         (contiguous_factory Z) [4; 4] None None
         (Some (mkDevice PrivateUse1 (-1))) None None (fresh_world 0))
    = Throws (InvalidDeviceError (-1)) /\
  fst (empty_strided_remote Z (double_backend healthy) Float (plain_guard Z)
         (strided_factory Z) [4; 4] [4; 1] None None
         (Some (mkDevice PrivateUse1 (-1))) None (fresh_world 0))
    = Throws (InvalidDeviceError (-1)).
Proof.
  split; [reflexivity |].
  apply (factories_reject_index_out_of_range Z (double_backend healthy)
           Float (plain_guard Z) (contiguous_factory Z) (strided_factory Z)
           [4; 4] [4; 1] None None (mkDevice PrivateUse1 (-1)) None None
           (fresh_world 0)).
  left. reflexivity.
Defined.
